(** * Cargo tasks for the editor: a model of [src/tasks.ts]

    The module has two units.  The configuration writer puts a fixed block of
    four cargo tasks under the ["tasks"] key of the workspace configuration,
    unless that key already reads as true.  The task provider registers a
    callback with the editor that answers with four task descriptors built
    from the workspace root.

    Everything the module calls in the editor (configuration store,
    notifications, console, task registry) is state of a [World]; the
    functions of the module are written in a small state-and-exception monad
    over it, in the order the TypeScript performs its effects. *)

From Stdlib Require Import String List PrimFloat.
From stdpp Require Import gmap strings list.
Import ListNotations.

Local Open Scope string_scope.
Set Warnings "-register-all".

(** ** JavaScript values held by the configuration *)

Module JS.

(** A value of a settings file.  Object members keep their order. *)
Inductive JSON : Type :=
| JNull
| JBool (b : bool)
| JNumber (x : float)
| JString (s : string)
| JArray (items : list JSON)
| JObject (members : list (string * JSON)).

(** ECMAScript ToBoolean: [null], [false], [+0], [-0], [NaN] and the empty
    string are false, every array and object is true. *)
Definition truthy (v : JSON) : bool :=
  match v with
  | JNull => false
  | JBool b => b
  | JNumber x => negb (PrimFloat.eqb x 0%float || PrimFloat.is_nan x)
  | JString s => negb (String.eqb s "")
  | JArray _ => true
  | JObject _ => true
  end.

(** [!!x] where [x] is a property read: a missing property is [undefined],
    which is false. *)
Definition double_bang (x : option JSON) : bool :=
  match x with
  | None => false
  | Some v => truthy v
  end.

(** [xs.join(sep)] on an array of strings. *)
Definition join (sep : string) (xs : list string) : string :=
  String.concat sep xs.

(** The value a [throw] or a rejected promise carries. *)
Definition Thrown := string.

End JS.
Import JS.

(** ** The editor API the module is written against *)

Module Vscode.

Inductive TaskGroup := Clean | Build | Rebuild | Test.
Inductive TaskRevealKind := Always | Silent | Never.
Inductive TaskPanelKind := Shared | Dedicated | New.

Record TaskPresentationOptions := {
  reveal : TaskRevealKind;
  panel : TaskPanelKind;
}.

Record ShellExecutionOptions := {
  cwd : option string;
}.

(** [new ShellExecution(commandLine, options)] *)
Record ShellExecution := {
  commandLine : string;
  options : ShellExecutionOptions;
}.

(** [interface CargoTaskDefinition extends TaskDefinition]; its [type] is
    the literal ['shell']. *)
Record CargoTaskDefinition := {
  type : string;
  taskName : string;
  command : string;
  args : list string;
}.

(** The fields of the editor's [Task] the module sets: the five arguments
    of its constructor, and [group] and [presentationOptions], which are
    assigned afterwards and are [None] while unassigned. *)
Record Task := {
  definition : CargoTaskDefinition;
  name : string;
  source : string;
  execution : ShellExecution;
  problemMatchers : option (list string);
  group : option TaskGroup;
  presentationOptions : option TaskPresentationOptions;
}.

Definition new_Task (d : CargoTaskDefinition) (n src : string)
    (exec : ShellExecution) (pm : option (list string)) : Task :=
  {| definition := d; name := n; source := src; execution := exec;
     problemMatchers := pm; group := None; presentationOptions := None |}.

Definition set_group (g : TaskGroup) (t : Task) : Task :=
  {| definition := definition t; name := name t; source := source t;
     execution := execution t; problemMatchers := problemMatchers t;
     group := Some g; presentationOptions := presentationOptions t |}.

Definition set_presentationOptions (p : TaskPresentationOptions) (t : Task) : Task :=
  {| definition := definition t; name := name t; source := source t;
     execution := execution t; problemMatchers := problemMatchers t;
     group := group t; presentationOptions := Some p |}.

Inductive ConsoleEntry :=
| console_log (msg : string)
| console_error (msg : string).

(** What a task provider can see and touch when the editor calls it:
    [workspace.rootPath] and the console. *)
Record Ambient := {
  rootPath : option string;
  console : list ConsoleEntry;
}.

Definition log_to (e : ConsoleEntry) (a : Ambient) : Ambient :=
  {| rootPath := rootPath a; console := console a ++ [e] |}.

(** [interface TaskProvider] *)
Record TaskProvider := {
  provideTasks : Ambient -> list Task * Ambient;
  resolveTask : Task -> option Task;
}.

(** A [Disposable] is known by the number the editor gave it. *)
Definition Disposable := nat.

Record Registration := {
  handle : Disposable;
  kind : string;
  capability : TaskProvider;
}.

(** What an exported writer returns: [undefined], or the promise of the
    notification showing [text].  The promise is the editor's: what it
    settles to, and whether it rejects instead, is not this module's doing,
    and [received] below says what the caller gets for each way the editor
    may settle it. *)
Inductive Answer :=
| NoAnswer
| AnswerTo (text : string).

(** The editor and, in [taskProvider], the one variable of the module.
    [update_verdict key value isGlobal] is the error with which the editor
    rejects that [config.update], if it does. *)
Record World := {
  ambient : Ambient;
  configuration : gmap string JSON;
  update_verdict : string -> JSON -> bool -> option Thrown;
  shown : list string;
  providers : list Registration;
  next_disposable : nat;
  taskProvider : option Disposable;
}.

Definition with_ambient (a : Ambient) (w : World) : World :=
  {| ambient := a; configuration := configuration w;
     update_verdict := update_verdict w; shown := shown w;
     providers := providers w; next_disposable := next_disposable w;
     taskProvider := taskProvider w |}.

Definition with_configuration (c : gmap string JSON) (w : World) : World :=
  {| ambient := ambient w; configuration := c;
     update_verdict := update_verdict w; shown := shown w;
     providers := providers w; next_disposable := next_disposable w;
     taskProvider := taskProvider w |}.

Definition with_shown (s : list string) (w : World) : World :=
  {| ambient := ambient w; configuration := configuration w;
     update_verdict := update_verdict w; shown := s;
     providers := providers w; next_disposable := next_disposable w;
     taskProvider := taskProvider w |}.

Definition with_providers (ps : list Registration) (n : nat) (w : World) : World :=
  {| ambient := ambient w; configuration := configuration w;
     update_verdict := update_verdict w; shown := shown w;
     providers := ps; next_disposable := n;
     taskProvider := taskProvider w |}.

Definition with_taskProvider (d : option Disposable) (w : World) : World :=
  {| ambient := ambient w; configuration := configuration w;
     update_verdict := update_verdict w; shown := shown w;
     providers := providers w; next_disposable := next_disposable w;
     taskProvider := d |}.

(** *** Computations: state passing, with JavaScript exceptions *)

Inductive Completion (A : Type) : Type :=
| Normal (a : A)
| Abrupt (e : Thrown).
Arguments Normal {A} a.
Arguments Abrupt {A} e.

Definition M (A : Type) : Type := World -> Completion A * World.

Definition ret {A} (a : A) : M A := fun w => (Normal a, w).

Definition bind {A B} (m : M A) (k : A -> M B) : M B :=
  fun w =>
    match m w with
    | (Normal a, w') => k a w'
    | (Abrupt e, w') => (Abrupt e, w')
    end.

Definition throw {A} (e : Thrown) : M A := fun w => (Abrupt e, w).

(** [try { m } catch (e) { h e }]: the effects of [m] up to the throw stay. *)
Definition try_catch {A} (m : M A) (h : Thrown -> M A) : M A :=
  fun w =>
    match m w with
    | (Normal a, w') => (Normal a, w')
    | (Abrupt e, w') => h e w'
    end.

(** Run a computation of the provider's view inside the world. *)
Definition in_ambient {A} (f : Ambient -> A * Ambient) : M A :=
  fun w => let (a, amb) := f (ambient w) in (Normal a, with_ambient amb w).

(** [console.log(msg)] and [console.error(msg)] *)
Definition console_write (e : ConsoleEntry) : M unit :=
  in_ambient (fun a => (tt, log_to e a)).

(** [workspace.getConfiguration()]: the configuration as it is now. *)
Definition workspace_getConfiguration : M (gmap string JSON) :=
  fun w => (Normal (configuration w), w).

(** [config.update(key, value, isGlobal)], awaited: the editor either
    rejects with its error and changes nothing, or stores the value.  The
    object [config] is the editor's view of its own store: the update goes
    to the store, whatever [config] read when it was fetched. *)
Definition config_update (config : gmap string JSON)
    (key : string) (value : JSON) (isGlobal : bool) : M unit :=
  fun w =>
    match update_verdict w key value isGlobal with
    | Some e => (Abrupt e, w)
    | None => (Normal tt, with_configuration (<[key := value]> (configuration w)) w)
    end.

(** [window.showInformationMessage(text)]: the text is handed to the editor
    and the promise of the notification comes back.  Every call in the
    module is the operand of a [return], so nothing of the module runs after
    it; how the promise settles is accounted for by [received]. *)
Definition window_showInformationMessage (text : string) : M Answer :=
  fun w => (Normal (AnswerTo text), with_shown (shown w ++ [text]) w).

(** [workspace.registerTaskProvider(kind, provider)] *)
Definition workspace_registerTaskProvider (k : string) (p : TaskProvider) : M Disposable :=
  fun w =>
    let d := next_disposable w in
    (Normal d,
     with_providers
       (providers w ++ [{| handle := d; kind := k; capability := p |}])
       (S d) w).

(** [d.dispose()]: the registration, if still there, is dropped. *)
Definition dispose (d : Disposable) : M unit :=
  fun w =>
    (Normal tt,
     with_providers
       (filter (fun r => handle r ≠ d) (providers w))
       (next_disposable w) w).

Definition read_taskProvider : M (option Disposable) :=
  fun w => (Normal (taskProvider w), w).

Definition write_taskProvider (d : option Disposable) : M unit :=
  fun w => (Normal tt, with_taskProvider d w).

End Vscode.
Import Vscode.

Declare Scope js_scope.
Delimit Scope js_scope with js.
Notation "x <- m ;; k" := (bind m (fun x => k))
  (at level 100, m at next level, right associativity) : js_scope.
Notation "m ;;; k" := (bind m (fun _ => k))
  (at level 100, right associativity) : js_scope.
Local Open Scope js_scope.

(** ** The module [tasks.ts] *)

(** *** Configuration writer *)

Definition getConfiguration : M (gmap string JSON * bool) :=
  config <- workspace_getConfiguration ;;
  let hasOtherTasks := double_bang (config !! "tasks") in
  ret (config, hasOtherTasks).

Definition createDefaultTaskConfig : JSON :=
  JObject [
    ("version", JString "2.0.0");
    ("presentation",
      JObject [ ("reveal", JString "always"); ("panel", JString "new") ]);
    ("tasks", JArray [
      JObject [
        ("taskName", JString "cargo build");
        ("type", JString "shell");
        ("command", JString "cargo");
        ("args", JArray [JString "build"]);
        ("group", JString "build");
        ("problemMatcher", JString "$rustc") ];
      JObject [
        ("taskName", JString "cargo run");
        ("type", JString "shell");
        ("command", JString "cargo");
        ("args", JArray [JString "run"]);
        ("problemMatcher", JString "$rustc") ];
      JObject [
        ("taskName", JString "cargo test");
        ("type", JString "shell");
        ("command", JString "cargo");
        ("args", JArray [JString "test"]);
        ("group", JString "test");
        ("problemMatcher", JString "$rustc") ];
      JObject [
        ("taskName", JString "cargo clean");
        ("type", JString "shell");
        ("command", JString "cargo");
        ("args", JArray [JString "clean"]) ] ])
  ].

Definition msg_has_other_tasks : string :=
  "tasks.json has other tasks. Any tasks are not added.".
Definition msg_could_not_update : string :=
  "Could not update tasks.json. Any tasks are not added.".
Definition msg_added : string :=
  "Added default build tasks for Rust".

(** The [try] block ends without a [return] ([None]); the [catch] block
    returns its notification ([Some]). *)
Definition addBuildCommands (config : gmap string JSON) : M Answer :=
  returned <-
    try_catch
      (let tasks := createDefaultTaskConfig in
       config_update config "tasks" tasks false ;;;
       ret None)
      (fun e =>
         console_write (console_error e) ;;;
         a <- window_showInformationMessage msg_could_not_update ;;
         ret (Some a)) ;;
  match returned with
  | Some a => ret a
  | None => window_showInformationMessage msg_added
  end.

Definition addBuildCommandsOnOpeningProject : M Answer :=
  c <- getConfiguration ;;
  let (config, hasOtherTasks) := c in
  if hasOtherTasks then ret NoAnswer
  else addBuildCommands config.

Definition addBuildCommandsByUser : M Answer :=
  c <- getConfiguration ;;
  let (config, hasOtherTasks) := c in
  if hasOtherTasks then window_showInformationMessage msg_has_other_tasks
  else addBuildCommands config.

(** *** Task provider *)

Record TaskConfigItem := {
  item_definition : CargoTaskDefinition;
  item_problemMatcher : option (list string);
  item_group : option TaskGroup;
  item_presentationOptions : option TaskPresentationOptions;
}.

Definition TASK_SOURCE : string := "Rust".

Definition createTask (rootPath : string) (item : TaskConfigItem) : Task :=
  let definition := item_definition item in
  let execCmd := command definition +:+ " " +:+ join " " (args definition) in
  let execOption := {| cwd := Some rootPath |} in
  let exec := {| commandLine := execCmd; options := execOption |} in
  let t := new_Task definition (taskName definition) TASK_SOURCE exec
             (item_problemMatcher item) in
  let t := match item_group item with
           | Some group => set_group group t
           | None => t
           end in
  let t := match item_presentationOptions item with
           | Some presentationOptions => set_presentationOptions presentationOptions t
           | None => t
           end in
  t.

(** The literal table of [getCargoTasks]. *)
Definition taskList : list TaskConfigItem :=
  let problemMatcher := ["$rustc"] in
  let presentationOptions := {| reveal := Always; panel := New |} in
  [ {| item_definition :=
         {| taskName := "cargo build"; type := "shell"; command := "cargo";
            args := ["build"] |};
       item_problemMatcher := Some problemMatcher;
       item_group := Some Build;
       item_presentationOptions := Some presentationOptions |};
    {| item_definition :=
         {| taskName := "cargo run"; type := "shell"; command := "cargo";
            args := ["run"] |};
       item_problemMatcher := Some problemMatcher;
       item_group := Some Build;
       item_presentationOptions := Some presentationOptions |};
    {| item_definition :=
         {| taskName := "cargo test"; type := "shell"; command := "cargo";
            args := ["test"] |};
       item_problemMatcher := Some problemMatcher;
       item_group := Some Test;
       item_presentationOptions := Some presentationOptions |};
    {| item_definition :=
         {| taskName := "cargo clean"; type := "shell"; command := "cargo";
            args := ["clean"] |};
       item_problemMatcher := None;
       item_group := Some Clean;
       item_presentationOptions := Some presentationOptions |} ].

Definition msg_no_root : string := "`workspace.rootPath` is `undefined`".

Definition getCargoTasks (a : Ambient) : list Task * Ambient :=
  match rootPath a with
  | None => ([], log_to (console_error msg_no_root) a)
  | Some rootPath => (map (fun def => createTask rootPath def) taskList, a)
  end.

(** The object literal [provider] of [activateTaskProvider]. *)
Definition provider : TaskProvider :=
  {| provideTasks := getCargoTasks;
     resolveTask := fun _task => None |}.

Definition msg_activated : string := "the task provider has been activated".

Definition activateTaskProvider : M unit :=
  held <- read_taskProvider ;;
  match held with
  | Some _ => console_write (console_log msg_activated)
  | None =>
      d <- workspace_registerTaskProvider "rust" provider ;;
      write_taskProvider (Some d)
  end.

Definition deactivateTaskProvider : M unit :=
  held <- read_taskProvider ;;
  match held with
  | Some d => dispose d
  | None => ret tt
  end.

(** The world a computation ends in, and what it completes with. *)
Definition after {A} (m : M A) (w : World) : World := snd (m w).
Definition outcome {A} (m : M A) (w : World) : Completion A := fst (m w).

(** *** What the caller of a writer receives

    Each writer returns the promise of its notification as it is, outside the
    [try] block or from inside the [catch] block, so the caller receives what
    the editor settles that promise to: the item picked, [undefined] (always
    so for a message shown without items, as all of the module's are), or a
    rejection. *)

Definition Settlement := string -> Completion (option string).

Definition received (settle : Settlement) (c : Completion Answer)
    : Completion (option string) :=
  match c with
  | Normal NoAnswer => Normal None
  | Normal (AnswerTo text) => settle text
  | Abrupt e => Abrupt e
  end.

(** The editor settling every notification to [undefined]. *)
Definition settles_to_undefined : Settlement := fun _ => Normal None.

(** The editor rejecting every notification with [e]. *)
Definition rejects_with (e : Thrown) : Settlement := fun _ => Abrupt e.

(** *** Reading the two task tables side by side

    The persisted table is JSON, the provider's table is a list of [Task]s.
    Both are read into rows of the same shape.  A problem matcher given as
    one string is the list of that one matcher; a group, a reveal kind and a
    panel kind are named in JSON by their identifiers.  A row of the JSON
    table has the presentation its own entry carries, if any. *)

Record Row := {
  row_taskName : string;
  row_type : string;
  row_command : string;
  row_args : list string;
  row_group : option TaskGroup;
  row_problemMatcher : option (list string);
  row_presentation : option TaskPresentationOptions;
}.

Definition member (key : string) (v : JSON) : option JSON :=
  match v with
  | JObject members => snd <$> find (fun kv => String.eqb (fst kv) key) members
  | _ => None
  end.

Definition as_string (v : JSON) : option string :=
  match v with
  | JString s => Some s
  | _ => None
  end.

Definition as_strings (v : JSON) : option (list string) :=
  match v with
  | JArray items => mapM as_string items
  | JString s => Some [s]
  | _ => None
  end.

Definition group_of_id (id : string) : option TaskGroup :=
  if String.eqb id "clean" then Some Clean
  else if String.eqb id "build" then Some Build
  else if String.eqb id "rebuild" then Some Rebuild
  else if String.eqb id "test" then Some Test
  else None.

Definition reveal_of_id (id : string) : option TaskRevealKind :=
  if String.eqb id "always" then Some Always
  else if String.eqb id "silent" then Some Silent
  else if String.eqb id "never" then Some Never
  else None.

Definition panel_of_id (id : string) : option TaskPanelKind :=
  if String.eqb id "shared" then Some Shared
  else if String.eqb id "dedicated" then Some Dedicated
  else if String.eqb id "new" then Some New
  else None.

Definition field {A} (read : JSON -> option A) (key : string) (v : JSON) : option A :=
  match member key v with
  | Some x => read x
  | None => None
  end.

Definition as_presentation (v : JSON) : option TaskPresentationOptions :=
  match field as_string "reveal" v, field as_string "panel" v with
  | Some r, Some p =>
      match reveal_of_id r, panel_of_id p with
      | Some r, Some p => Some {| reveal := r; panel := p |}
      | _, _ => None
      end
  | _, _ => None
  end.

Definition row_of_json (v : JSON) : option Row :=
  match field as_string "taskName" v, field as_string "type" v,
        field as_string "command" v, field as_strings "args" v with
  | Some n, Some t, Some c, Some a =>
      Some {| row_taskName := n; row_type := t; row_command := c; row_args := a;
              row_group :=
                match field as_string "group" v with
                | Some id => group_of_id id
                | None => None
                end;
              row_problemMatcher := field as_strings "problemMatcher" v;
              row_presentation := field as_presentation "presentation" v |}
  | _, _, _, _ => None
  end.

Definition rows_of_config (v : JSON) : option (list Row) :=
  match member "tasks" v with
  | Some (JArray items) => mapM row_of_json items
  | _ => None
  end.

Definition row_of_task (t : Task) : Row :=
  {| row_taskName := taskName (definition t);
     row_type := type (definition t);
     row_command := command (definition t);
     row_args := args (definition t);
     row_group := group t;
     row_problemMatcher := problemMatchers t;
     row_presentation := presentationOptions t |}.

Definition with_row_group (g : option TaskGroup) (r : Row) : Row :=
  {| row_taskName := row_taskName r; row_type := row_type r;
     row_command := row_command r; row_args := row_args r;
     row_group := g; row_problemMatcher := row_problemMatcher r;
     row_presentation := row_presentation r |}.

Definition with_row_presentation (p : TaskPresentationOptions) (r : Row) : Row :=
  {| row_taskName := row_taskName r; row_type := row_type r;
     row_command := row_command r; row_args := row_args r;
     row_group := row_group r; row_problemMatcher := row_problemMatcher r;
     row_presentation := Some p |}.

(** The rows the provider answers with for a given root. *)
Definition runtime_rows (root : string) : list Row :=
  row_of_task <$> fst (getCargoTasks {| rootPath := Some root; console := [] |}).

(** The rows of the block the writer persists. *)
Definition persisted_rows : list Row :=
  default [] (rows_of_config createDefaultTaskConfig).

(** *** The specification's own tables *)

(** One entry of the table of section 6 of the specification, members in the
    order they are printed there; an entry printed without a group or a
    problem matcher has no such member. *)
Definition spec_entry (verb : string) (grp pm : option string) : JSON :=
  JObject (
    [ ("taskName", JString ("cargo " +:+ verb));
      ("type", JString "shell");
      ("command", JString "cargo");
      ("args", JArray [JString verb]) ]
    ++ match grp with Some g => [("group", JString g)] | None => [] end
    ++ match pm with Some p => [("problemMatcher", JString p)] | None => [] end).

(** The persisted configuration shape of section 6 of the specification. *)
Definition spec_persisted_block : JSON :=
  JObject [
    ("version", JString "2.0.0");
    ("presentation",
      JObject [ ("reveal", JString "always"); ("panel", JString "new") ]);
    ("tasks", JArray [
      spec_entry "build" (Some "build") (Some "$rustc");
      spec_entry "run" None (Some "$rustc");
      spec_entry "test" (Some "test") (Some "$rustc");
      spec_entry "clean" None None ])
  ].

(** The runtime descriptors as the specification describes them: the
    persisted table, with the presentation options added to every row and
    group [Clean] given to the clean task, and nothing else changed. *)
Definition spec_runtime_rows : list Row :=
  (fun r =>
     let r := with_row_presentation {| reveal := Always; panel := New |} r in
     if String.eqb (row_taskName r) "cargo clean"
     then with_row_group (Some Clean) r
     else r) <$> persisted_rows.

(** What the code's table differs by: presentation options on every row,
    group [Clean] for the clean task and group [Build] for the run task. *)
Definition code_runtime_rows : list Row :=
  (fun r =>
     let r := with_row_presentation {| reveal := Always; panel := New |} r in
     if String.eqb (row_taskName r) "cargo clean"
     then with_row_group (Some Clean) r
     else if String.eqb (row_taskName r) "cargo run"
     then with_row_group (Some Build) r
     else r) <$> persisted_rows.

(** *** Worlds to run the module in *)

Definition accepting : string -> JSON -> bool -> option Thrown :=
  fun _ _ _ => None.

Definition rejecting (e : Thrown) : string -> JSON -> bool -> option Thrown :=
  fun _ _ _ => Some e.

(** A freshly started editor: nothing logged, shown or registered. *)
Definition started (root : option string) (conf : gmap string JSON)
    (verdict : string -> JSON -> bool -> option Thrown) : World :=
  {| ambient := {| rootPath := root; console := [] |};
     configuration := conf;
     update_verdict := verdict;
     shown := [];
     providers := [];
     next_disposable := 0;
     taskProvider := None |}.

(** The two states of the registration, as the module's guard reads them. *)
Inductive RegistrationState := Unregistered | Registered.

Definition registration_state (w : World) : RegistrationState :=
  match taskProvider w with
  | None => Unregistered
  | Some _ => Registered
  end.

(** The registrations of this module's kind the editor holds. *)
Definition rust_registrations (w : World) : list Registration :=
  filter (fun r => kind r = "rust") (providers w).

(** The world the writer leaves when the editor takes the update. *)
Definition written (w : World) : World :=
  with_shown (shown w ++ [msg_added])
    (with_configuration (<["tasks" := createDefaultTaskConfig]> (configuration w)) w).

(** The world the writer leaves when the editor rejects the update with [e]. *)
Definition failed (e : Thrown) (w : World) : World :=
  with_shown (shown w ++ [msg_could_not_update])
    (with_ambient (log_to (console_error e) (ambient w)) w).

(** The registration [activateTaskProvider] asks the editor for. *)
Definition rust_registration (d : Disposable) : Registration :=
  {| handle := d; kind := "rust"; capability := provider |}.

(** *** The editor calling into the module

    The editor calls the exports one after the other, in any order and any
    number of times: the two activation functions, the two writers (whose
    answers go to the caller and are dropped here), and [provideTasks] of the
    provider object. *)

Inductive Event :=
| Activate
| Deactivate
| OpenProject
| UserCommand
| QueryTasks.

Definition call (e : Event) : M unit :=
  match e with
  | Activate => activateTaskProvider
  | Deactivate => deactivateTaskProvider
  | OpenProject => addBuildCommandsOnOpeningProject ;;; ret tt
  | UserCommand => addBuildCommandsByUser ;;; ret tt
  | QueryTasks => in_ambient (provideTasks provider) ;;; ret tt
  end.

Definition calls (es : list Event) (w : World) : World :=
  fold_left (fun w e => after (call e) w) es w.

(** A task with the working directory of its execution replaced. *)
Definition relocate (root : string) (t : Task) : Task :=
  {| definition := definition t; name := name t; source := source t;
     execution :=
       {| commandLine := commandLine (execution t);
          options := {| cwd := Some root |} |};
     problemMatchers := problemMatchers t; group := group t;
     presentationOptions := presentationOptions t |}.

(** A table entry with other arguments. *)
Definition with_args (xs : list string) (item : TaskConfigItem) : TaskConfigItem :=
  {| item_definition :=
       {| type := type (item_definition item);
          taskName := taskName (item_definition item);
          command := command (item_definition item);
          args := xs |};
     item_problemMatcher := item_problemMatcher item;
     item_group := item_group item;
     item_presentationOptions := item_presentationOptions item |}.

(** Every registration the editor holds was numbered by the editor. *)
Definition handles_issued (w : World) : Prop :=
  Forall (fun r => handle r < next_disposable w) (providers w).

(** * Properties *)

(** ** The monad *)

Lemma bind_ret_l {A B} (a : A) (k : A -> M B) (w : World) :
  bind (ret a) k w = k a w.
Proof. reflexivity. Qed.

Lemma bind_normal {A B} (m : M A) (k : A -> M B) (w w' : World) (a : A) :
  m w = (Normal a, w') -> bind m k w = k a w'.
Proof. intros H. unfold bind. rewrite H. reflexivity. Qed.

Lemma bind_abrupt {A B} (m : M A) (k : A -> M B) (w w' : World) (e : Thrown) :
  m w = (Abrupt e, w') -> bind m k w = (Abrupt e, w').
Proof. intros H. unfold bind. rewrite H. reflexivity. Qed.

Lemma try_catch_abrupt {A} (m : M A) (h : Thrown -> M A) (w w' : World) (e : Thrown) :
  m w = (Abrupt e, w') -> try_catch m h w = h e w'.
Proof. intros H. unfold try_catch. rewrite H. reflexivity. Qed.

Lemma try_catch_normal {A} (m : M A) (h : Thrown -> M A) (w w' : World) (a : A) :
  m w = (Normal a, w') -> try_catch m h w = (Normal a, w').
Proof. intros H. unfold try_catch. rewrite H. reflexivity. Qed.

(** ** The configuration writer *)

Lemma config_update_accepted (config : gmap string JSON)
    (key : string) (v : JSON) (g : bool) (w : World) :
  update_verdict w key v g = None ->
  config_update config key v g w
  = (Normal tt, with_configuration (<[key := v]> (configuration w)) w).
Proof. intros H. unfold config_update. rewrite H. reflexivity. Qed.

Lemma config_update_rejected (config : gmap string JSON)
    (key : string) (v : JSON) (g : bool) (w : World) (e : Thrown) :
  update_verdict w key v g = Some e ->
  config_update config key v g w = (Abrupt e, w).
Proof. intros H. unfold config_update. rewrite H. reflexivity. Qed.

Lemma addBuildCommands_accepted (config : gmap string JSON) (w : World) :
  update_verdict w "tasks" createDefaultTaskConfig false = None ->
  addBuildCommands config w = (Normal (AnswerTo msg_added), written w).
Proof.
  intros Hok. unfold addBuildCommands.
  erewrite bind_normal.
  2:{ apply try_catch_normal. erewrite bind_normal.
      - reflexivity.
      - apply config_update_accepted, Hok. }
  reflexivity.
Qed.

Lemma addBuildCommands_rejected (config : gmap string JSON) (w : World) (e : Thrown) :
  update_verdict w "tasks" createDefaultTaskConfig false = Some e ->
  addBuildCommands config w = (Normal (AnswerTo msg_could_not_update), failed e w).
Proof.
  intros Hno. unfold addBuildCommands.
  erewrite bind_normal.
  2:{ erewrite try_catch_abrupt.
      - reflexivity.
      - apply bind_abrupt, config_update_rejected, Hno. }
  reflexivity.
Qed.

Lemma getConfiguration_run (w : World) :
  getConfiguration w
  = (Normal (configuration w, double_bang (configuration w !! "tasks")), w).
Proof. reflexivity. Qed.

Lemma addBuildCommandsOnOpeningProject_run (w : World) :
  addBuildCommandsOnOpeningProject w
  = if double_bang (configuration w !! "tasks")
    then (Normal NoAnswer, w)
    else addBuildCommands (configuration w) w.
Proof.
  unfold addBuildCommandsOnOpeningProject.
  rewrite (bind_normal _ _ _ _ _ (getConfiguration_run w)).
  destruct (double_bang _); reflexivity.
Qed.

Lemma addBuildCommandsByUser_run (w : World) :
  addBuildCommandsByUser w
  = if double_bang (configuration w !! "tasks")
    then (Normal (AnswerTo msg_has_other_tasks),
          with_shown (shown w ++ [msg_has_other_tasks]) w)
    else addBuildCommands (configuration w) w.
Proof.
  unfold addBuildCommandsByUser.
  rewrite (bind_normal _ _ _ _ _ (getConfiguration_run w)).
  destruct (double_bang _); reflexivity.
Qed.

Lemma createDefaultTaskConfig_is_spec_block :
  createDefaultTaskConfig = spec_persisted_block.
Proof. reflexivity. Qed.

Lemma written_lookup_tasks (w : World) :
  configuration (written w) !! "tasks" = Some createDefaultTaskConfig.
Proof. unfold written. simpl. apply lookup_insert_eq. Qed.

Lemma written_lookup_other (w : World) (key : string) :
  key ≠ "tasks" -> configuration (written w) !! key = configuration w !! key.
Proof. intros Hne. unfold written. simpl. apply lookup_insert_ne. congruence. Qed.

(** C1, as stated, fails where the editor rejects the update: the store has
    no ["tasks"] key, and after either writer it still has none and the
    failure notification is what comes back. *)
Lemma absent_key_rejected_update :
  let w := started None ∅ (rejecting "EACCES") in
  configuration w !! "tasks" = None
  ∧ configuration (after addBuildCommandsOnOpeningProject w) !! "tasks"
      ≠ Some createDefaultTaskConfig
  ∧ outcome addBuildCommandsOnOpeningProject w ≠ Normal (AnswerTo msg_added)
  ∧ configuration (after addBuildCommandsByUser w) !! "tasks"
      ≠ Some createDefaultTaskConfig
  ∧ outcome addBuildCommandsByUser w ≠ Normal (AnswerTo msg_added).
Proof.
  cbv zeta. repeat split; try reflexivity; intros H; vm_compute in H; discriminate H.
Qed.

(** C1, amended: for every store without a ["tasks"] key whose update the
    editor accepts, either writer stores exactly the four-task block of
    section 6 under ["tasks"], touches no other key, shows the success
    notification and returns it. *)
Theorem writer_adds_block_when_update_accepted (w : World) :
  configuration w !! "tasks" = None ->
  update_verdict w "tasks" createDefaultTaskConfig false = None ->
  addBuildCommandsOnOpeningProject w = (Normal (AnswerTo msg_added), written w)
  ∧ addBuildCommandsByUser w = (Normal (AnswerTo msg_added), written w)
  ∧ configuration (written w) !! "tasks" = Some spec_persisted_block
  ∧ (forall key, key ≠ "tasks" ->
       configuration (written w) !! key = configuration w !! key)
  ∧ shown (written w) = (shown w ++ ["Added default build tasks for Rust"])%list.
Proof.
  intros Habsent Hok.
  rewrite addBuildCommandsOnOpeningProject_run, addBuildCommandsByUser_run.
  rewrite Habsent. simpl double_bang. cbv iota.
  rewrite (addBuildCommands_accepted _ _ Hok).
  rewrite <- createDefaultTaskConfig_is_spec_block.
  repeat split.
  - apply written_lookup_tasks.
  - apply written_lookup_other.
Qed.

Lemma writer_adds_block_when_update_accepted_witness :
  let w := started (Some "/proj") ∅ accepting in
  addBuildCommandsOnOpeningProject w = (Normal (AnswerTo msg_added), written w)
  ∧ addBuildCommandsByUser w = (Normal (AnswerTo msg_added), written w)
  ∧ configuration (written w) !! "tasks" = Some spec_persisted_block
  ∧ (forall key, key ≠ "tasks" ->
       configuration (written w) !! key = configuration w !! key)
  ∧ shown (written w) = (shown w ++ ["Added default build tasks for Rust"])%list.
Proof.
  apply (writer_adds_block_when_update_accepted (started (Some "/proj") ∅ accepting)).
  - reflexivity.
  - reflexivity.
Defined.




(** C7, as stated, fails in two ways.  The writer returns the promise of the
    failure notification from inside its [catch] block: where the editor
    rejects that promise, the rejection reaches the caller; and where the
    editor settles it to [undefined], as it does for a message without
    items, [undefined] is what the caller receives, not the text. *)
Lemma failure_notification_is_returned_unguarded :
  let w := started None ∅ (rejecting "EACCES") in
  update_verdict w "tasks" createDefaultTaskConfig false = Some "EACCES"
  ∧ received (rejects_with "Canceled") (outcome addBuildCommandsByUser w)
    = Abrupt "Canceled"
  ∧ received (rejects_with "Canceled") (outcome addBuildCommandsOnOpeningProject w)
    = Abrupt "Canceled"
  ∧ received (rejects_with "Canceled") (outcome (addBuildCommands ∅) w)
    = Abrupt "Canceled"
  ∧ received settles_to_undefined (outcome addBuildCommandsByUser w) = Normal None
  ∧ Normal None
    ≠ Normal (Some "Could not update tasks.json. Any tasks are not added.").
Proof.
  cbv zeta. repeat split; try reflexivity. discriminate.
Qed.

(** C7, amended: whenever the editor rejects the update with an error [e],
    the writer logs [e] to the console, hands the failure notification to
    the editor, leaves the store as it was and returns the promise of that
    notification; so do both exported functions whenever they reach the
    writer.  The caller receives exactly what the editor settles that
    promise to: the error of the update is never passed on, and the writer
    rejects only if the notification does. *)
Theorem rejected_update_is_reported (w : World) (e : Thrown) (settle : Settlement) :
  update_verdict w "tasks" createDefaultTaskConfig false = Some e ->
  (forall config,
     addBuildCommands config w
     = (Normal (AnswerTo "Could not update tasks.json. Any tasks are not added."),
        failed e w)
     ∧ received settle (outcome (addBuildCommands config) w)
       = settle "Could not update tasks.json. Any tasks are not added.")
  ∧ (double_bang (configuration w !! "tasks") = false ->
       addBuildCommandsOnOpeningProject w
       = (Normal (AnswerTo "Could not update tasks.json. Any tasks are not added."),
          failed e w)
       ∧ addBuildCommandsByUser w
       = (Normal (AnswerTo "Could not update tasks.json. Any tasks are not added."),
          failed e w)
       ∧ received settle (outcome addBuildCommandsOnOpeningProject w)
         = settle "Could not update tasks.json. Any tasks are not added."
       ∧ received settle (outcome addBuildCommandsByUser w)
         = settle "Could not update tasks.json. Any tasks are not added.")
  ∧ console (ambient (failed e w)) = (console (ambient w) ++ [console_error e])%list
  ∧ shown (failed e w)
    = (shown w ++ ["Could not update tasks.json. Any tasks are not added."])%list
  ∧ configuration (failed e w) = configuration w.
Proof.
  intros Hrej. split; [|split].
  - intros config. unfold outcome.
    rewrite (addBuildCommands_rejected config w e Hrej). split; reflexivity.
  - intros Hfalse. unfold outcome.
    rewrite addBuildCommandsOnOpeningProject_run, addBuildCommandsByUser_run.
    rewrite Hfalse, (addBuildCommands_rejected _ w e Hrej).
    repeat split.
  - repeat split.
Qed.

Lemma rejected_update_is_reported_witness :
  let w := started (Some "/proj") ∅ (rejecting "EROFS: read-only file system") in
  addBuildCommandsByUser w
  = (Normal (AnswerTo "Could not update tasks.json. Any tasks are not added."),
     failed "EROFS: read-only file system" w)
  ∧ received settles_to_undefined (outcome addBuildCommandsByUser w) = Normal None
  ∧ console (ambient (failed "EROFS: read-only file system" w))
    = [console_error "EROFS: read-only file system"].
Proof.
  cbv zeta.
  pose proof (rejected_update_is_reported
                (started (Some "/proj") ∅ (rejecting "EROFS: read-only file system"))
                "EROFS: read-only file system" settles_to_undefined eq_refl)
    as (_ & Hexp & Hlog & _).
  destruct Hexp as (_ & Hrun & _ & Hgot); [reflexivity |].
  split; [exact Hrun | split; [exact Hgot | exact Hlog]].
Defined.

(** C10, as stated, fails where the editor rejects the update: ["tasks"]
    holds [false], the key is read as absent, but the attempt to overwrite it
    is rejected and the value stays. *)
Lemma false_tasks_survive_rejected_update :
  let w := started None {["tasks" := JBool false]} (rejecting "EACCES") in
  configuration w !! "tasks" = Some (JBool false)
  ∧ truthy (JBool false) = false
  ∧ configuration (after addBuildCommandsOnOpeningProject w) !! "tasks"
    = Some (JBool false)
  ∧ configuration (after addBuildCommandsByUser w) !! "tasks"
    = Some (JBool false)
  ∧ Some (JBool false) ≠ Some createDefaultTaskConfig.
Proof.
  cbv zeta. repeat split; try reflexivity. discriminate.
Qed.

(** C10, amended: the check is for truthiness, not for the presence of the
    key.  [null], [false], [0] and the empty string read as false, and for
    every store whose ["tasks"] value reads as false both exported functions
    go on exactly as the writer does on that store: the key is treated as
    absent.  Whenever the editor accepts the update, the value is then
    overwritten with the default four-task block. *)
Theorem falsy_tasks_are_treated_as_absent :
  Forall (fun v => truthy v = false)
    [JNull; JBool false; JNumber 0%float; JString ""]
  ∧ forall (w : World) (v : JSON),
      configuration w !! "tasks" = Some v ->
      truthy v = false ->
      outcome getConfiguration w = Normal (configuration w, false)
      ∧ addBuildCommandsOnOpeningProject w = addBuildCommands (configuration w) w
      ∧ addBuildCommandsByUser w = addBuildCommands (configuration w) w
      ∧ (update_verdict w "tasks" createDefaultTaskConfig false = None ->
           addBuildCommandsOnOpeningProject w = (Normal (AnswerTo msg_added), written w)
           ∧ addBuildCommandsByUser w = (Normal (AnswerTo msg_added), written w)
           ∧ configuration (written w) !! "tasks" = Some createDefaultTaskConfig
           ∧ configuration (written w) = <["tasks" := createDefaultTaskConfig]> (configuration w)).
Proof.
  split.
  - repeat constructor.
  - intros w v Hv Hf.
    assert (Hb : double_bang (configuration w !! "tasks") = false)
      by (rewrite Hv; exact Hf).
    unfold outcome.
    rewrite getConfiguration_run, addBuildCommandsOnOpeningProject_run,
      addBuildCommandsByUser_run, Hb.
    repeat split.
    + apply addBuildCommands_accepted; assumption.
    + apply addBuildCommands_accepted; assumption.
    + apply written_lookup_tasks.
Qed.

Lemma falsy_tasks_are_treated_as_absent_witness :
  let w := started None {["tasks" := JNumber 0%float]} accepting in
  addBuildCommandsOnOpeningProject w = (Normal (AnswerTo msg_added), written w)
  ∧ configuration (written w) !! "tasks" = Some createDefaultTaskConfig.
Proof.
  cbv zeta.
  pose proof (proj2 falsy_tasks_are_treated_as_absent
                (started None {["tasks" := JNumber 0%float]} accepting)
                (JNumber 0%float)) as H.
  destruct H as (_ & _ & _ & Hacc); [reflexivity | reflexivity |].
  destruct Hacc as (H1 & _ & H3 & _); [reflexivity |].
  split; assumption.
Defined.

(** ** The task provider *)

Lemma getCargoTasks_with_root (a : Ambient) (root : string) :
  rootPath a = Some root ->
  getCargoTasks a = (map (createTask root) taskList, a).
Proof. intros H. unfold getCargoTasks. rewrite H. reflexivity. Qed.

Lemma getCargoTasks_without_root (a : Ambient) :
  rootPath a = None ->
  getCargoTasks a = ([], log_to (console_error msg_no_root) a).
Proof. intros H. unfold getCargoTasks. rewrite H. reflexivity. Qed.

(** [createTask] on any table entry: the command line is the command, one
    space, and the arguments joined by single spaces; the working directory
    is the root. *)
Lemma createTask_execution (root : string) (item : TaskConfigItem) :
  commandLine (execution (createTask root item))
  = command (item_definition item) +:+ " " +:+ join " " (args (item_definition item))
  ∧ cwd (options (execution (createTask root item))) = Some root
  ∧ definition (createTask root item) = item_definition item
  ∧ name (createTask root item) = taskName (item_definition item).
Proof.
  unfold createTask.
  destruct (item_group item), (item_presentationOptions item); repeat split.
Qed.

(** C2: with a defined project root, [provideTasks] answers with exactly four
    descriptors, named cargo build, run, test and clean in this order, each
    with command ["cargo"] and the arguments of the table, and logs nothing;
    with an undefined root it answers with the empty list and logs an
    error. *)
Theorem provideTasks_answers (a : Ambient) :
  (forall root : string,
     rootPath a = Some root ->
     let ts := fst (provideTasks provider a) in
     length ts = 4
     ∧ map name ts = ["cargo build"; "cargo run"; "cargo test"; "cargo clean"]
     ∧ Forall (fun t => command (definition t) = "cargo") ts
     ∧ map (fun t => args (definition t)) ts
       = [["build"]; ["run"]; ["test"]; ["clean"]]
     ∧ snd (provideTasks provider a) = a)
  ∧ (rootPath a = None ->
     fst (provideTasks provider a) = []
     ∧ console (snd (provideTasks provider a))
       = (console a ++ [console_error "`workspace.rootPath` is `undefined`"])%list
     ∧ rootPath (snd (provideTasks provider a)) = None).
Proof.
  split.
  - intros root Hroot. simpl provideTasks.
    rewrite (getCargoTasks_with_root a root Hroot). simpl.
    repeat split. repeat constructor.
  - intros Hnone. simpl provideTasks.
    rewrite (getCargoTasks_without_root a Hnone). simpl.
    repeat split. exact Hnone.
Qed.

Lemma provideTasks_answers_witness :
  map name (fst (provideTasks provider {| rootPath := Some "/proj"; console := [] |}))
  = ["cargo build"; "cargo run"; "cargo test"; "cargo clean"]
  ∧ fst (provideTasks provider {| rootPath := None; console := [] |}) = [].
Proof.
  split.
  - destruct (provideTasks_answers {| rootPath := Some "/proj"; console := [] |})
      as [Hsome _].
    destruct (Hsome "/proj") as (_ & Hnames & _); [reflexivity |].
    exact Hnames.
  - destruct (provideTasks_answers {| rootPath := None; console := [] |})
      as [_ Hnone].
    destruct Hnone as (Hempty & _); [reflexivity |].
    exact Hempty.
Defined.

(** C8: every descriptor [provideTasks] answers with has as its command line
    its command and arguments joined by single spaces, with nothing added,
    which gives exactly "cargo build", "cargo run", "cargo test" and
    "cargo clean", and has the project root as working directory. *)
Theorem provideTasks_command_lines (a : Ambient) (root : string) :
  rootPath a = Some root ->
  let ts := fst (provideTasks provider a) in
  map (fun t => commandLine (execution t)) ts
  = ["cargo build"; "cargo run"; "cargo test"; "cargo clean"]
  ∧ Forall (fun t =>
              commandLine (execution t)
              = command (definition t) +:+ " " +:+ join " " (args (definition t))
              ∧ cwd (options (execution t)) = Some root) ts.
Proof.
  intros Hroot. simpl provideTasks.
  rewrite (getCargoTasks_with_root a root Hroot). cbn [fst].
  split.
  - reflexivity.
  - apply Forall_map, Forall_forall. intros item _.
    destruct (createTask_execution root item) as (Hline & Hcwd & Hdef & _).
    rewrite Hdef. split; assumption.
Qed.

Lemma provideTasks_command_lines_witness :
  let ts := fst (provideTasks provider {| rootPath := Some "/proj"; console := [] |}) in
  (commandLine ∘ execution) <$> head ts = Some "cargo build"
  ∧ (cwd ∘ options ∘ execution) <$> head ts = Some (Some "/proj")
  ∧ map (fun t => commandLine (execution t)) ts
    = ["cargo build"; "cargo run"; "cargo test"; "cargo clean"].
Proof.
  cbv zeta. split; [reflexivity | split; [reflexivity |]].
  destruct (provideTasks_command_lines
              {| rootPath := Some "/proj"; console := [] |} "/proj")
    as [Hlines _]; [reflexivity |].
  exact Hlines.
Defined.

(** ** Registration *)

(** Run [activateTaskProvider] or [deactivateTaskProvider] through its test
    of the module variable, whose value [H] gives. *)
Ltac through_guard H :=
  unfold activateTaskProvider, deactivateTaskProvider, bind, read_taskProvider;
  rewrite H; reflexivity.

Lemma activateTaskProvider_unregistered (w : World) :
  taskProvider w = None ->
  activateTaskProvider w
  = (Normal tt,
     with_taskProvider (Some (next_disposable w))
       (with_providers (providers w ++ [rust_registration (next_disposable w)])
          (S (next_disposable w)) w)).
Proof.
  intros H. through_guard H.
Qed.

Lemma activateTaskProvider_registered (w : World) (d : Disposable) :
  taskProvider w = Some d ->
  activateTaskProvider w
  = (Normal tt, with_ambient (log_to (console_log msg_activated) (ambient w)) w).
Proof.
  intros H. through_guard H.
Qed.

Lemma deactivateTaskProvider_registered (w : World) (d : Disposable) :
  taskProvider w = Some d ->
  deactivateTaskProvider w
  = (Normal tt,
     with_providers (filter (fun r => handle r ≠ d) (providers w))
       (next_disposable w) w).
Proof.
  intros H. through_guard H.
Qed.

Lemma deactivateTaskProvider_unregistered (w : World) :
  taskProvider w = None -> deactivateTaskProvider w = (Normal tt, w).
Proof.
  intros H. through_guard H.
Qed.

(** [deactivateTaskProvider] disposes of the registration but never assigns
    the module variable: the handle it read is still there afterwards. *)
Lemma deactivateTaskProvider_keeps_handle (w : World) :
  taskProvider (after deactivateTaskProvider w) = taskProvider w.
Proof.
  unfold after. destruct (taskProvider w) as [d|] eqn:H.
  - rewrite (deactivateTaskProvider_registered w d H). exact H.
  - rewrite (deactivateTaskProvider_unregistered w H). exact H.
Qed.

(** Hence activating after a deactivation only logs: the guard still finds a
    handle, whatever the editor's registry holds by then. *)
Lemma activate_after_deactivate_only_logs (w : World) (d : Disposable) :
  taskProvider w = Some d ->
  let w' := after deactivateTaskProvider w in
  activateTaskProvider w'
  = (Normal tt, with_ambient (log_to (console_log msg_activated) (ambient w')) w').
Proof.
  intros H w'. apply (activateTaskProvider_registered w' d).
  unfold w'. rewrite deactivateTaskProvider_keeps_handle. exact H.
Qed.

(** C9: the provider that [activateTaskProvider] registers declines to
    resolve: whatever task it is handed, [resolveTask] returns [undefined]. *)
Theorem registered_provider_declines_to_resolve (w : World) (t : Task) :
  taskProvider w = None ->
  exists r : Registration,
    last (providers (after activateTaskProvider w)) = Some r
    ∧ taskProvider (after activateTaskProvider w) = Some (handle r)
    ∧ kind r = "rust"
    ∧ resolveTask (capability r) t = None.
Proof.
  intros H. exists (rust_registration (next_disposable w)).
  unfold after. rewrite (activateTaskProvider_unregistered w H). simpl.
  rewrite last_snoc. repeat split.
Qed.

Lemma registered_provider_declines_to_resolve_witness :
  exists r : Registration,
    last (providers (after activateTaskProvider (started (Some "/proj") ∅ accepting)))
    = Some r
    ∧ taskProvider (after activateTaskProvider (started (Some "/proj") ∅ accepting))
      = Some (handle r)
    ∧ kind r = "rust"
    ∧ resolveTask (capability r)
        (createTask "/proj"
           {| item_definition :=
                {| type := "shell"; taskName := "cargo doc"; command := "cargo";
                   args := ["doc"] |};
              item_problemMatcher := None; item_group := None;
              item_presentationOptions := None |})
      = None.
Proof.
  apply (registered_provider_declines_to_resolve
           (started (Some "/proj") ∅ accepting)).
  reflexivity.
Defined.

(** C6: from the unregistered state, two calls of [activateTaskProvider] in a
    row leave exactly one registration held: the first call adds one
    registration of kind ["rust"] to the editor and keeps its handle, the
    second only writes a line to the console. *)
Theorem activateTaskProvider_idempotent (w : World) :
  taskProvider w = None ->
  let w1 := after activateTaskProvider w in
  let w2 := after activateTaskProvider w1 in
  providers w1 = (providers w ++ [rust_registration (next_disposable w)])%list
  ∧ taskProvider w1 = Some (next_disposable w)
  ∧ w2 = with_ambient
           (log_to (console_log "the task provider has been activated") (ambient w1))
           w1
  ∧ providers w2 = providers w1
  ∧ taskProvider w2 = taskProvider w1
  ∧ length (providers w2) = S (length (providers w))
  ∧ (rust_registrations w = [] ->
     rust_registrations w2 = [rust_registration (next_disposable w)])
  ∧ outcome (activateTaskProvider ;;; activateTaskProvider) w = Normal tt
  ∧ after (activateTaskProvider ;;; activateTaskProvider) w = w2.
Proof.
  intros H w1 w2.
  assert (H1 : activateTaskProvider w = (Normal tt, w1)).
  { unfold w1, after. destruct (activateTaskProvider w) as [c wx] eqn:E.
    rewrite (activateTaskProvider_unregistered w H) in E.
    injection E as <- <-. reflexivity. }
  assert (Hp1 : providers w1
                = (providers w ++ [rust_registration (next_disposable w)])%list).
  { unfold w1, after. rewrite (activateTaskProvider_unregistered w H). reflexivity. }
  assert (Ht1 : taskProvider w1 = Some (next_disposable w)).
  { unfold w1, after. rewrite (activateTaskProvider_unregistered w H). reflexivity. }
  assert (H2 : activateTaskProvider w1
               = (Normal tt,
                  with_ambient (log_to (console_log msg_activated) (ambient w1)) w1))
    by exact (activateTaskProvider_registered w1 _ Ht1).
  assert (Hw2 : w2 = with_ambient (log_to (console_log msg_activated) (ambient w1)) w1).
  { unfold w2, after. rewrite H2. reflexivity. }
  split; [exact Hp1 |]. split; [exact Ht1 |]. split; [exact Hw2 |].
  rewrite Hw2. simpl providers. simpl taskProvider.
  split; [reflexivity |]. split; [reflexivity |].
  split.
  { rewrite Hp1, length_app. simpl. lia. }
  split.
  { intros Hnone. unfold rust_registrations in *. simpl providers.
    rewrite Hp1, filter_app, Hnone. reflexivity. }
  unfold outcome, after.
  rewrite (bind_normal _ _ _ _ _ H1), H2. split; reflexivity.
Qed.

Lemma activateTaskProvider_idempotent_witness :
  let w := started (Some "/proj") ∅ accepting in
  let w2 := after activateTaskProvider (after activateTaskProvider w) in
  providers w2 = [rust_registration 0]
  ∧ taskProvider w2 = Some 0
  ∧ console (ambient w2) = [console_log "the task provider has been activated"].
Proof.
  cbv zeta.
  destruct (activateTaskProvider_idempotent (started (Some "/proj") ∅ accepting))
    as (_ & _ & Hw2 & _); [reflexivity |].
  rewrite Hw2. repeat split.
Defined.

(** C4, on the code: activate, deactivate, activate from a fresh editor.  The
    first call registers and the second disposes of the registration, but the
    module variable still holds the handle, so the module reads as
    registered, and the third call registers nothing and logs that the
    provider has been activated. *)
Theorem reactivation_registers_nothing :
  let w := started (Some "/proj") ∅ accepting in
  let w1 := after activateTaskProvider w in
  let w2 := after deactivateTaskProvider w1 in
  let w3 := after activateTaskProvider w2 in
  registration_state w = Unregistered
  ∧ registration_state w1 = Registered
  ∧ providers w1 = [rust_registration 0]
  ∧ providers w2 = []
  ∧ registration_state w2 = Registered
  ∧ providers w3 = []
  ∧ taskProvider w3 = Some 0
  ∧ console (ambient w3) = [console_log "the task provider has been activated"].
Proof.
  cbv zeta. repeat split.
Qed.

(** ** The two tables *)

Lemma persisted_rows_read :
  rows_of_config createDefaultTaskConfig = Some persisted_rows
  ∧ length persisted_rows = 4.
Proof. split; reflexivity. Qed.

Lemma runtime_rows_any_root (root : string) :
  runtime_rows root = row_of_task <$> (createTask root <$> taskList).
Proof. reflexivity. Qed.

(** C5, as stated, fails at the run task: the specification's description
    leaves it without a group, as in the persisted table, while the provider
    gives it group [Build]. *)
Lemma run_task_has_a_group_at_runtime :
  runtime_rows "/proj" ≠ spec_runtime_rows
  ∧ row_group <$> (persisted_rows !! 1) = Some None
  ∧ row_group <$> (spec_runtime_rows !! 1) = Some None
  ∧ row_taskName <$> (runtime_rows "/proj" !! 1) = Some "cargo run"
  ∧ row_group <$> (runtime_rows "/proj" !! 1) = Some (Some Build).
Proof.
  split; [| repeat split].
  intros H. apply (f_equal (fun rows => row_group <$> (rows !! 1))) in H.
  vm_compute in H. discriminate H.
Qed.

(** C5, amended: the provider's descriptors are the persisted table with the
    presentation options [Always] and [New] added to every descriptor, group
    [Clean] given to the clean task and group [Build] given to the run task;
    names, types, commands, arguments and problem matchers are those of the
    persisted table, and the build and test tasks keep its groups. *)
Theorem runtime_table_mirrors_persisted_table (root : string) :
  runtime_rows root = code_runtime_rows
  ∧ row_taskName <$> runtime_rows root = row_taskName <$> persisted_rows
  ∧ row_type <$> runtime_rows root = row_type <$> persisted_rows
  ∧ row_command <$> runtime_rows root = row_command <$> persisted_rows
  ∧ row_args <$> runtime_rows root = row_args <$> persisted_rows
  ∧ row_problemMatcher <$> runtime_rows root = row_problemMatcher <$> persisted_rows
  ∧ Forall (fun r => row_presentation r = Some {| reveal := Always; panel := New |})
      (runtime_rows root)
  ∧ Forall (fun r => row_presentation r = None) persisted_rows
  ∧ row_group <$> persisted_rows = [Some Build; None; Some Test; None]
  ∧ row_group <$> runtime_rows root = [Some Build; Some Build; Some Test; Some Clean].
Proof.
  rewrite runtime_rows_any_root.
  repeat split; repeat constructor.
Qed.

(** * Further properties of the code *)

(** ** The writers, in every world *)

(** Split a goal about a writer run in [w] into its three courses: tasks
    already there, update rejected, update accepted. *)
Ltac writer_courses w :=
  rewrite ?addBuildCommandsOnOpeningProject_run, ?addBuildCommandsByUser_run;
  destruct (double_bang (configuration w !! "tasks")) eqn:Hthere;
  [ | let Hv := fresh "Hverdict" in
      destruct (update_verdict w "tasks" createDefaultTaskConfig false)
        as [?e|] eqn:Hv;
      [ rewrite ?(addBuildCommands_rejected _ _ _ Hv)
      | rewrite ?(addBuildCommands_accepted _ _ Hv) ] ].

Lemma truthy_createDefaultTaskConfig : truthy createDefaultTaskConfig = true.
Proof. reflexivity. Qed.

Lemma double_bang_written (w : World) :
  double_bang (configuration (written w) !! "tasks") = true.
Proof. rewrite written_lookup_tasks. reflexivity. Qed.

(** X2: the writers stay out of the task provider's business.  Neither
    touches the editor's registry, the module variable [taskProvider] or the
    workspace root, so the provider answers with the same tasks before and
    after. *)
Theorem writers_leave_registration_alone (w : World) :
  Forall (fun w' : World =>
            providers w' = providers w
            ∧ next_disposable w' = next_disposable w
            ∧ taskProvider w' = taskProvider w
            ∧ rootPath (ambient w') = rootPath (ambient w)
            ∧ fst (provideTasks provider (ambient w'))
              = fst (provideTasks provider (ambient w)))
    [after addBuildCommandsOnOpeningProject w; after addBuildCommandsByUser w].
Proof.
  assert (Hroot : forall a a' : Ambient,
             rootPath a' = rootPath a ->
             fst (provideTasks provider a') = fst (provideTasks provider a)).
  { intros a a' H. simpl. unfold getCargoTasks. rewrite H.
    destruct (rootPath a); reflexivity. }
  unfold after. repeat constructor; writer_courses w; simpl;
    try reflexivity; apply Hroot; reflexivity.
Qed.

(** X3: the two writers always leave the same store and the same console.
    They differ in one thing only: where tasks are already there,
    [addBuildCommandsByUser] shows one notification more.
    [addBuildCommandsOnOpeningProject] shows no notification exactly when
    tasks are already there. *)
Theorem writers_differ_in_feedback_only (w : World) :
  configuration (after addBuildCommandsByUser w)
  = configuration (after addBuildCommandsOnOpeningProject w)
  ∧ ambient (after addBuildCommandsByUser w)
    = ambient (after addBuildCommandsOnOpeningProject w)
  ∧ shown (after addBuildCommandsByUser w)
    = (if double_bang (configuration w !! "tasks")
       then shown (after addBuildCommandsOnOpeningProject w)
            ++ ["tasks.json has other tasks. Any tasks are not added."]
       else shown (after addBuildCommandsOnOpeningProject w))%list
  ∧ (shown (after addBuildCommandsOnOpeningProject w) = shown w
     <-> double_bang (configuration w !! "tasks") = true).
Proof.
  assert (Hgrows : forall (l : list string) (m : string), (l ++ [m])%list ≠ l).
  { intros l m H. apply (f_equal length) in H.
    rewrite length_app in H. simpl in H. lia. }
  unfold after. writer_courses w; simpl; repeat split;
    try reflexivity; intros H; try discriminate H;
    exfalso; exact (Hgrows _ _ H).
Qed.

(** X4: [addBuildCommandsByUser] always answers the user: in every world it
    shows exactly one notification, one of its three texts, and returns the
    answer to it.  [addBuildCommandsOnOpeningProject] shows at most one, and
    never the "has other tasks" one. *)
Theorem writers_notify (w : World) :
  (exists m,
     outcome addBuildCommandsByUser w = Normal (AnswerTo m)
     ∧ shown (after addBuildCommandsByUser w) = (shown w ++ [m])%list
     ∧ m ∈ ["tasks.json has other tasks. Any tasks are not added.";
            "Could not update tasks.json. Any tasks are not added.";
            "Added default build tasks for Rust"])
  ∧ ((outcome addBuildCommandsOnOpeningProject w = Normal NoAnswer
      ∧ after addBuildCommandsOnOpeningProject w = w)
     ∨ exists m,
         outcome addBuildCommandsOnOpeningProject w = Normal (AnswerTo m)
         ∧ shown (after addBuildCommandsOnOpeningProject w) = (shown w ++ [m])%list
         ∧ m ∈ ["Could not update tasks.json. Any tasks are not added.";
                "Added default build tasks for Rust"]).
Proof.
  unfold after, outcome. split.
  - writer_courses w; eexists; (split; [reflexivity | split; [reflexivity |]]);
      set_solver.
  - writer_courses w; [left; split; reflexivity | right | right];
      eexists; (split; [reflexivity | split; [reflexivity |]]); set_solver.
Qed.

Lemma calls_nil (w : World) : calls [] w = w.
Proof. reflexivity. Qed.

Lemma calls_cons (e : Event) (es : list Event) (w : World) :
  calls (e :: es) w = calls es (after (call e) w).
Proof. reflexivity. Qed.

(** X5: the writer writes once.  After a write that the editor accepted, the
    block under ["tasks"] reads as true: a further
    [addBuildCommandsOnOpeningProject] changes nothing and returns no
    message, and a further [addBuildCommandsByUser] leaves the store as it is
    and answers that there are other tasks. *)
Theorem writer_writes_once (w : World) :
  double_bang (configuration w !! "tasks") = false ->
  update_verdict w "tasks" createDefaultTaskConfig false = None ->
  let w1 := after addBuildCommandsOnOpeningProject w in
  after addBuildCommandsByUser w = w1
  ∧ configuration w1 !! "tasks" = Some createDefaultTaskConfig
  ∧ addBuildCommandsOnOpeningProject w1 = (Normal NoAnswer, w1)
  ∧ outcome addBuildCommandsByUser w1
    = Normal (AnswerTo "tasks.json has other tasks. Any tasks are not added.")
  ∧ configuration (after addBuildCommandsByUser w1) = configuration w1.
Proof.
  intros Habsent Hok w1.
  assert (Hw1 : w1 = written w).
  { unfold w1, after. rewrite addBuildCommandsOnOpeningProject_run, Habsent.
    rewrite (addBuildCommands_accepted _ _ Hok). reflexivity. }
  rewrite Hw1. unfold after, outcome.
  rewrite !addBuildCommandsOnOpeningProject_run, !addBuildCommandsByUser_run.
  rewrite Habsent, double_bang_written.
  rewrite (addBuildCommands_accepted _ _ Hok).
  repeat split. apply written_lookup_tasks.
Qed.

Lemma writer_writes_once_witness :
  let w := started None {["tasks" := JString ""]} accepting in
  let w1 := after addBuildCommandsOnOpeningProject w in
  addBuildCommandsOnOpeningProject w1 = (Normal NoAnswer, w1)
  ∧ shown w1 = ["Added default build tasks for Rust"].
Proof.
  cbv zeta.
  destruct (writer_writes_once (started None {["tasks" := JString ""]} accepting))
    as (_ & _ & Hnoop & _); [reflexivity | reflexivity |].
  split; [exact Hnoop | reflexivity].
Defined.

(** X6: a rejected write is tried again.  A run whose update the editor
    rejects leaves the store as it was, so the next run goes to the writer
    again; while the editor keeps rejecting, every
    [addBuildCommandsOnOpeningProject] logs the error and shows the failure
    notification again. *)
Theorem rejected_write_is_retried (w : World) (e : Thrown) (n : nat) :
  double_bang (configuration w !! "tasks") = false ->
  update_verdict w "tasks" createDefaultTaskConfig false = Some e ->
  let wn := calls (repeat OpenProject n) w in
  configuration wn = configuration w
  ∧ console (ambient wn) = (console (ambient w) ++ repeat (console_error e) n)%list
  ∧ shown wn
    = (shown w
       ++ repeat "Could not update tasks.json. Any tasks are not added." n)%list.
Proof.
  revert w. induction n as [|n IH]; intros w Habsent Hrej; cbv zeta.
  - simpl repeat. rewrite calls_nil, !app_nil_r. repeat split.
  - assert (Hstep : after (call OpenProject) w = failed e w).
    { unfold after, call.
      erewrite bind_normal.
      2:{ rewrite addBuildCommandsOnOpeningProject_run, Habsent.
          apply (addBuildCommands_rejected _ _ e Hrej). }
      reflexivity. }
    simpl repeat. rewrite calls_cons, Hstep.
    destruct (IH (failed e w)) as (Hc & Hl & Hs); [exact Habsent | exact Hrej |].
    rewrite Hc, Hl, Hs. simpl.
    rewrite <- !app_assoc. repeat split.
Qed.

Lemma rejected_write_is_retried_witness :
  console (ambient (calls [OpenProject; OpenProject]
                      (started None ∅ (rejecting "EACCES"))))
  = [console_error "EACCES"; console_error "EACCES"].
Proof.
  destruct (rejected_write_is_retried
              (started None ∅ (rejecting "EACCES")) "EACCES" 2)
    as (_ & Hlog & _); [reflexivity | reflexivity |].
  exact Hlog.
Defined.

(** X7: an empty task list is a task list.  Where ["tasks"] holds any array
    or any object, the empty ones included, both writers find other tasks:
    the store is left alone, and only [addBuildCommandsByUser] says so. *)
Theorem empty_tasks_count_as_tasks (w : World) (v : JSON) :
  configuration w !! "tasks" = Some v ->
  (exists items, v = JArray items) ∨ (exists members, v = JObject members) ->
  addBuildCommandsOnOpeningProject w = (Normal NoAnswer, w)
  ∧ addBuildCommandsByUser w
    = (Normal (AnswerTo "tasks.json has other tasks. Any tasks are not added."),
       with_shown
         (shown w ++ ["tasks.json has other tasks. Any tasks are not added."]) w).
Proof.
  intros Hv Hshape.
  assert (Ht : double_bang (configuration w !! "tasks") = true).
  { rewrite Hv. destruct Hshape as [[items ->] | [members ->]]; reflexivity. }
  rewrite addBuildCommandsOnOpeningProject_run, addBuildCommandsByUser_run, Ht.
  split; reflexivity.
Qed.

Lemma empty_tasks_count_as_tasks_witness :
  let w := started None {["tasks" := JArray []]} accepting in
  addBuildCommandsOnOpeningProject w = (Normal NoAnswer, w).
Proof.
  cbv zeta.
  destruct (empty_tasks_count_as_tasks
              (started None {["tasks" := JArray []]} accepting) (JArray []))
    as [Hnoop _]; [reflexivity | left; exists []; reflexivity |].
  exact Hnoop.
Defined.

(** ** Any sequence of calls *)

(** The world each call leaves, by cases on what the call finds. *)
Lemma after_call (e : Event) (w : World) :
  after (call e) w
  = match e with
    | Activate =>
        match taskProvider w with
        | Some _ => with_ambient (log_to (console_log msg_activated) (ambient w)) w
        | None =>
            with_taskProvider (Some (next_disposable w))
              (with_providers
                 (providers w ++ [rust_registration (next_disposable w)])
                 (S (next_disposable w)) w)
        end
    | Deactivate =>
        match taskProvider w with
        | Some d =>
            with_providers (filter (fun r => handle r ≠ d) (providers w))
              (next_disposable w) w
        | None => w
        end
    | OpenProject =>
        if double_bang (configuration w !! "tasks") then w
        else match update_verdict w "tasks" createDefaultTaskConfig false with
             | Some err => failed err w
             | None => written w
             end
    | UserCommand =>
        if double_bang (configuration w !! "tasks")
        then with_shown (shown w ++ [msg_has_other_tasks]) w
        else match update_verdict w "tasks" createDefaultTaskConfig false with
             | Some err => failed err w
             | None => written w
             end
    | QueryTasks => with_ambient (snd (getCargoTasks (ambient w))) w
    end.
Proof.
  destruct e; unfold after, call.
  - destruct (taskProvider w) as [d|] eqn:H.
    + rewrite (activateTaskProvider_registered w d H). reflexivity.
    + rewrite (activateTaskProvider_unregistered w H). reflexivity.
  - destruct (taskProvider w) as [d|] eqn:H.
    + rewrite (deactivateTaskProvider_registered w d H). reflexivity.
    + rewrite (deactivateTaskProvider_unregistered w H). reflexivity.
  - unfold bind. writer_courses w; reflexivity.
  - unfold bind. writer_courses w; reflexivity.
  - unfold bind, in_ambient. simpl. destruct (getCargoTasks (ambient w)). reflexivity.
Qed.

Lemma getCargoTasks_rootPath (a : Ambient) :
  rootPath (snd (getCargoTasks a)) = rootPath a.
Proof. unfold getCargoTasks. destruct (rootPath a) eqn:H; simpl; congruence. Qed.

Lemma step_registered (e : Event) (w : World) (d : Disposable) :
  taskProvider w = Some d ->
  taskProvider (after (call e) w) = Some d
  ∧ next_disposable (after (call e) w) = next_disposable w
  ∧ providers (after (call e) w) ⊆ providers w.
Proof.
  intros H. rewrite after_call.
  destruct e; rewrite ?H; simpl;
    repeat match goal with
           | |- context [if ?b then _ else _] => destruct b
           | |- context [match ?x with Some _ => _ | None => _ end] => destruct x
           end; simpl; repeat split; try assumption; try reflexivity.
  intros r Hr. apply list_elem_of_filter in Hr. apply Hr.
Qed.

Lemma calls_registered (es : list Event) (w : World) (d : Disposable) :
  taskProvider w = Some d ->
  taskProvider (calls es w) = Some d
  ∧ next_disposable (calls es w) = next_disposable w
  ∧ providers (calls es w) ⊆ providers w.
Proof.
  revert w. induction es as [|e es IH]; intros w H.
  - rewrite calls_nil. repeat split; [assumption | reflexivity].
  - rewrite calls_cons.
    destruct (step_registered e w d H) as (Ht & Hn & Hp).
    destruct (IH _ Ht) as (Ht' & Hn' & Hp').
    repeat split; [assumption | congruence | etrans; eassumption].
Qed.

Lemma step_unregistered (e : Event) (w : World) :
  taskProvider w = None ->
  (taskProvider (after (call e) w) = None
   ∧ next_disposable (after (call e) w) = next_disposable w
   ∧ providers (after (call e) w) = providers w)
  ∨ (e = Activate
     ∧ taskProvider (after (call e) w) = Some (next_disposable w)
     ∧ next_disposable (after (call e) w) = S (next_disposable w)
     ∧ providers (after (call e) w)
       = (providers w ++ [rust_registration (next_disposable w)])%list).
Proof.
  intros H. rewrite after_call.
  destruct e; rewrite ?H; simpl;
    [ right; repeat split | left .. ];
    repeat match goal with
           | |- context [if ?b then _ else _] => destruct b
           | |- context [match ?x with Some _ => _ | None => _ end] => destruct x
           end; simpl; repeat split; assumption.
Qed.

(** The guard of [activateTaskProvider] over any history: no sequence of
    calls, deactivations included, assigns [null] to [taskProvider] again,
    so from a world in which a handle is held the module never asks the
    editor for another registration, and an [activateTaskProvider] after any
    such history leaves the registry as it finds it. *)
Lemma handle_is_never_released (es : list Event) (w : World) (d : Disposable) :
  taskProvider w = Some d ->
  let w' := calls es w in
  taskProvider w' = Some d
  ∧ registration_state w' = Registered
  ∧ next_disposable w' = next_disposable w
  ∧ providers w' ⊆ providers w
  ∧ providers (after activateTaskProvider w') = providers w'.
Proof.
  intros H w'. destruct (calls_registered es w d H) as (Ht & Hn & Hp).
  fold w' in Ht, Hn, Hp.
  repeat split; try assumption.
  - unfold registration_state. rewrite Ht. reflexivity.
  - unfold after. rewrite (activateTaskProvider_registered w' d Ht). reflexivity.
Qed.

Lemma handle_is_never_released_witness :
  let w := after activateTaskProvider (started (Some "/proj") ∅ accepting) in
  let w' := calls [Deactivate; OpenProject; Deactivate; Activate] w in
  taskProvider w' = Some 0 ∧ providers (after activateTaskProvider w') = providers w'.
Proof.
  cbv zeta.
  destruct (handle_is_never_released
              [Deactivate; OpenProject; Deactivate; Activate]
              (after activateTaskProvider (started (Some "/proj") ∅ accepting)) 0)
    as (Ht & _ & _ & _ & Hp); [reflexivity |].
  split; [exact Ht | exact Hp].
Defined.

(** Consequently, whatever the editor calls, in whatever order and however
    often, it hands out at most one more [Disposable] to the module and its
    registry grows by at most one entry. *)
Lemma at_most_one_registration (es : list Event) (w : World) :
  next_disposable w <= next_disposable (calls es w)
  ∧ next_disposable (calls es w) <= S (next_disposable w)
  ∧ length (providers (calls es w)) <= S (length (providers w)).
Proof.
  assert (Hreg : forall es w d,
             taskProvider w = Some d ->
             next_disposable (calls es w) = next_disposable w
             ∧ length (providers (calls es w)) <= length (providers w)).
  { clear es w. induction es as [|e es IH]; intros w d H.
    - rewrite calls_nil. split; [reflexivity | lia].
    - rewrite calls_cons.
      destruct (step_registered e w d H) as (Ht & Hn & _).
      destruct (IH _ _ Ht) as (Hn' & Hl').
      split; [congruence |].
      etrans; [exact Hl' |].
      rewrite after_call.
      destruct e; rewrite ?H; simpl;
        repeat match goal with
               | |- context [if ?b then _ else _] => destruct b
               | |- context [match ?x with Some _ => _ | None => _ end] => destruct x
               end; simpl; try lia.
      apply length_filter. }
  revert w. induction es as [|e es IH]; intros w.
  - rewrite calls_nil. lia.
  - rewrite calls_cons.
    destruct (taskProvider w) as [d|] eqn:H.
    + destruct (Hreg (e :: es) w d H) as (Hn & Hl).
      rewrite calls_cons in Hn, Hl. lia.
    + destruct (step_unregistered e w H)
        as [(Ht & Hn & Hp) | (_ & Ht & Hn & Hp)].
      * specialize (IH (after (call e) w)). rewrite Hn, Hp in IH. exact IH.
      * destruct (Hreg es _ _ Ht) as (Hn' & Hl').
        rewrite Hn', Hn. rewrite Hp, length_app in Hl'. simpl in Hl'. lia.
Qed.

Lemma calls_registered_without_deactivate (es : list Event) (w : World) (d : Disposable) :
  Forall (fun e => e ≠ Deactivate) es ->
  taskProvider w = Some d ->
  providers (calls es w) = providers w ∧ taskProvider (calls es w) = Some d.
Proof.
  intros Hes. revert w. induction Hes as [|e es He _ IH]; intros w H.
  - rewrite calls_nil. split; [reflexivity | exact H].
  - rewrite calls_cons.
    assert (Hstep : providers (after (call e) w) = providers w
                    ∧ taskProvider (after (call e) w) = Some d).
    { rewrite after_call. destruct e; try congruence; rewrite ?H; simpl;
        repeat match goal with
               | |- context [if ?b then _ else _] => destruct b
               | |- context [match ?x with Some _ => _ | None => _ end] => destruct x
               end; simpl; split; try reflexivity; exact H. }
    destruct Hstep as [Hp Ht]. destruct (IH _ Ht) as [Hp' Ht'].
    split; [congruence | exact Ht'].
Qed.

(** X8: one activation, one registration, however often it is asked for.
    From the unregistered state, after [activateTaskProvider] any further
    calls that do not deactivate (more activations, writers, task queries, in
    any order) leave the editor with exactly the one registration of kind
    ["rust"] the first call made, and the module with its handle. *)
Theorem activation_registers_once (es : list Event) (w : World) :
  Forall (fun e => e ≠ Deactivate) es ->
  taskProvider w = None ->
  providers (calls (Activate :: es) w)
  = (providers w ++ [rust_registration (next_disposable w)])%list
  ∧ taskProvider (calls (Activate :: es) w) = Some (next_disposable w).
Proof.
  intros Hes Hnone. rewrite calls_cons.
  assert (Hfirst : after (call Activate) w
                   = with_taskProvider (Some (next_disposable w))
                       (with_providers
                          (providers w ++ [rust_registration (next_disposable w)])
                          (S (next_disposable w)) w)).
  { rewrite after_call, Hnone. reflexivity. }
  destruct (calls_registered_without_deactivate es (after (call Activate) w)
              (next_disposable w) Hes) as [Hp Ht].
  { rewrite Hfirst. reflexivity. }
  rewrite Hp, Ht, Hfirst. split; reflexivity.
Qed.

Lemma activation_registers_once_witness :
  providers (calls [Activate; OpenProject; Activate; QueryTasks; Activate]
               (started (Some "/proj") ∅ accepting))
  = [rust_registration 0].
Proof.
  destruct (activation_registers_once
              [OpenProject; Activate; QueryTasks; Activate]
              (started (Some "/proj") ∅ accepting)) as [Hp _].
  - repeat constructor; discriminate.
  - reflexivity.
  - exact Hp.
Defined.

(** Take the world a call leaves apart into the cases of [after_call]. *)
Ltac call_cases e :=
  rewrite after_call; destruct e; simpl;
  repeat match goal with
         | |- context [if ?b then _ else _] => destruct b eqn:?
         | |- context [match ?x with Some _ => _ | None => _ end] => destruct x eqn:?
         end; simpl.

Lemma step_frame (e : Event) (w : World) :
  (forall key, key ≠ "tasks" ->
     configuration (after (call e) w) !! key = configuration w !! key)
  ∧ rootPath (ambient (after (call e) w)) = rootPath (ambient w)
  ∧ update_verdict (after (call e) w) = update_verdict w.
Proof.
  split; [intros key Hkey | split].
  - call_cases e; try reflexivity; apply lookup_insert_ne; congruence.
  - call_cases e; try reflexivity; apply getCargoTasks_rootPath.
  - call_cases e; reflexivity.
Qed.

Lemma step_existing_tasks (e : Event) (w : World) :
  double_bang (configuration w !! "tasks") = true ->
  configuration (after (call e) w) = configuration w.
Proof.
  intros H. rewrite after_call. destruct e; rewrite ?H; simpl;
    repeat match goal with
           | |- context [match ?x with Some _ => _ | None => _ end] => destruct x
           end; reflexivity.
Qed.

(** X9: the module writes to one key only.  Whatever the editor calls, in
    whatever order and however often, every configuration key other than
    ["tasks"] keeps its value (or its absence), and the workspace root is
    never changed. *)
Theorem only_the_tasks_key_is_written (es : list Event) (w : World) (key : string) :
  key ≠ "tasks" ->
  configuration (calls es w) !! key = configuration w !! key
  ∧ rootPath (ambient (calls es w)) = rootPath (ambient w).
Proof.
  intros Hkey. revert w. induction es as [|e es IH]; intros w.
  - rewrite calls_nil. split; reflexivity.
  - rewrite calls_cons. destruct (IH (after (call e) w)) as [Hc Hr].
    destruct (step_frame e w) as (Hc' & Hr' & _).
    rewrite Hc, Hr, Hr', (Hc' key Hkey). split; reflexivity.
Qed.

Lemma only_the_tasks_key_is_written_witness :
  let w := started (Some "/proj") {["editor.tabSize" := JString "4"]} accepting in
  configuration (calls [OpenProject; Activate; UserCommand; QueryTasks] w)
    !! "editor.tabSize"
  = Some (JString "4").
Proof.
  cbv zeta.
  destruct (only_the_tasks_key_is_written
              [OpenProject; Activate; UserCommand; QueryTasks]
              (started (Some "/proj") {["editor.tabSize" := JString "4"]} accepting)
              "editor.tabSize")
    as [Hc _]; [discriminate |].
  rewrite Hc. reflexivity.
Defined.

(** X10: tasks that are there are never touched.  Once ["tasks"] holds a
    value that reads as true, no sequence of calls changes the configuration
    store at all, whatever the editor would answer to an update. *)
Theorem existing_tasks_are_never_replaced (es : list Event) (w : World) :
  double_bang (configuration w !! "tasks") = true ->
  configuration (calls es w) = configuration w.
Proof.
  revert w. induction es as [|e es IH]; intros w H.
  - reflexivity.
  - rewrite calls_cons.
    assert (Hstep := step_existing_tasks e w H).
    rewrite IH; [exact Hstep |]. rewrite Hstep. exact H.
Qed.

Lemma existing_tasks_are_never_replaced_witness :
  let w := started None {["tasks" := JString "mine"]} accepting in
  configuration (calls [OpenProject; UserCommand; Activate; OpenProject] w)
  = {["tasks" := JString "mine"]}.
Proof.
  cbv zeta.
  rewrite (existing_tasks_are_never_replaced
             [OpenProject; UserCommand; Activate; OpenProject]
             (started None {["tasks" := JString "mine"]} accepting));
    reflexivity.
Defined.

(** X11: the activation functions stay out of the writers' business.
    [activateTaskProvider], [deactivateTaskProvider] and a call of
    [provideTasks] change neither the configuration store nor the
    notifications shown, so a writer called afterwards answers as it would
    have before. *)
Theorem registration_leaves_writers_alone (w : World) :
  Forall (fun e =>
            configuration (after (call e) w) = configuration w
            ∧ shown (after (call e) w) = shown w
            ∧ outcome addBuildCommandsOnOpeningProject (after (call e) w)
              = outcome addBuildCommandsOnOpeningProject w
            ∧ outcome addBuildCommandsByUser (after (call e) w)
              = outcome addBuildCommandsByUser w)
    [Activate; Deactivate; QueryTasks].
Proof.
  assert (Hgen : forall w' : World,
             configuration w' = configuration w ->
             update_verdict w' = update_verdict w ->
             outcome addBuildCommandsOnOpeningProject w'
             = outcome addBuildCommandsOnOpeningProject w
             ∧ outcome addBuildCommandsByUser w'
               = outcome addBuildCommandsByUser w).
  { intros w' Hc Hv. unfold outcome.
    rewrite !addBuildCommandsOnOpeningProject_run, !addBuildCommandsByUser_run.
    rewrite Hc.
    destruct (double_bang (configuration w !! "tasks")); [split; reflexivity |].
    destruct (update_verdict w "tasks" createDefaultTaskConfig false)
      as [err|] eqn:Hw.
    - rewrite (addBuildCommands_rejected _ w err Hw).
      rewrite (addBuildCommands_rejected _ w' err) by (rewrite Hv; exact Hw).
      split; reflexivity.
    - rewrite (addBuildCommands_accepted _ w Hw).
      rewrite (addBuildCommands_accepted _ w') by (rewrite Hv; exact Hw).
      split; reflexivity. }
  repeat constructor;
    try (apply Hgen; [| apply step_frame]);
    rewrite after_call; simpl; destruct (taskProvider w); reflexivity.
Qed.

(** ** Registering and disposing *)

Lemma filter_handles_below (l : list Registration) (d : Disposable) :
  Forall (fun r => handle r < d) l ->
  filter (fun r => handle r ≠ d) l = l.
Proof.
  induction 1 as [|r l Hr _ IH]; [reflexivity |].
  rewrite filter_cons_True by lia. rewrite IH. reflexivity.
Qed.

(** X12: registering and then disposing gives the editor its registry back.
    In a world whose registrations were all numbered by the editor, from the
    unregistered state, [activateTaskProvider] followed by
    [deactivateTaskProvider] leaves exactly the registrations there were,
    in their order, and touches neither the store, the console nor the
    notifications. *)
Theorem activate_then_deactivate_restores_registry (w : World) :
  handles_issued w ->
  taskProvider w = None ->
  let w2 := after deactivateTaskProvider (after activateTaskProvider w) in
  providers w2 = providers w
  ∧ configuration w2 = configuration w
  ∧ ambient w2 = ambient w
  ∧ shown w2 = shown w.
Proof.
  intros Hissued Hnone w2. unfold w2, after.
  rewrite (activateTaskProvider_unregistered w Hnone). cbn [snd].
  erewrite deactivateTaskProvider_registered by reflexivity.
  cbn. repeat split.
  rewrite filter_app, (filter_handles_below _ _ Hissued).
  rewrite filter_cons_False, filter_nil by (simpl; tauto).
  apply app_nil_r.
Qed.

Lemma activate_then_deactivate_restores_registry_witness :
  let other := {| handle := 0; kind := "npm"; capability := provider |} in
  let w := with_providers [other] 1 (started (Some "/proj") ∅ accepting) in
  providers (after deactivateTaskProvider (after activateTaskProvider w)) = [other]
  ∧ configuration (after deactivateTaskProvider (after activateTaskProvider w)) = ∅.
Proof.
  cbv zeta.
  destruct (activate_then_deactivate_restores_registry
              (with_providers
                 [{| handle := 0; kind := "npm"; capability := provider |}] 1
                 (started (Some "/proj") ∅ accepting)))
    as (Hp & Hc & _).
  - repeat constructor.
  - reflexivity.
  - split; [exact Hp | exact Hc].
Defined.

(** X13: [deactivateTaskProvider] drops the registration the module holds
    and no other: a registration is in the editor's registry afterwards
    exactly if it was there before under another handle.  A second
    [deactivateTaskProvider] finds nothing left to drop. *)
Theorem deactivate_drops_own_registration_only (w : World) (d : Disposable) :
  taskProvider w = Some d ->
  let w1 := after deactivateTaskProvider w in
  (forall r, r ∈ providers w1 <-> r ∈ providers w ∧ handle r ≠ d)
  ∧ after deactivateTaskProvider w1 = w1
  ∧ outcome deactivateTaskProvider w1 = Normal tt.
Proof.
  intros H w1.
  assert (Hw1 : w1 = with_providers (filter (fun r => handle r ≠ d) (providers w))
                       (next_disposable w) w).
  { unfold w1, after. rewrite (deactivateTaskProvider_registered w d H). reflexivity. }
  split; [| split].
  - intros r. rewrite Hw1. simpl. rewrite list_elem_of_filter. tauto.
  - unfold after at 1.
    rewrite (deactivateTaskProvider_registered w1 d)
      by (unfold w1; rewrite deactivateTaskProvider_keeps_handle; exact H).
    rewrite Hw1. cbn.
    rewrite list_filter_filter.
    rewrite (list_filter_iff _ (fun r => handle r ≠ d)) by tauto.
    reflexivity.
  - unfold outcome.
    rewrite (deactivateTaskProvider_registered w1 d)
      by (unfold w1; rewrite deactivateTaskProvider_keeps_handle; exact H).
    reflexivity.
Qed.

Lemma deactivate_drops_own_registration_only_witness :
  let other := {| handle := 0; kind := "npm"; capability := provider |} in
  let w := after activateTaskProvider
             (with_providers [other] 1 (started (Some "/proj") ∅ accepting)) in
  providers w = [other; rust_registration 1]
  ∧ after deactivateTaskProvider (after deactivateTaskProvider w)
    = after deactivateTaskProvider w
  ∧ providers (after deactivateTaskProvider w) = [other].
Proof.
  cbv zeta. split; [reflexivity |].
  destruct (deactivate_drops_own_registration_only
              (after activateTaskProvider
                 (with_providers
                    [{| handle := 0; kind := "npm"; capability := provider |}] 1
                    (started (Some "/proj") ∅ accepting))) 1)
    as (_ & Hidem & _); [reflexivity |].
  split; [exact Hidem | reflexivity].
Defined.

(** ** Building a task *)

Lemma append_assoc (s1 s2 s3 : string) :
  (s1 +:+ s2) +:+ s3 = s1 +:+ (s2 +:+ s3).
Proof.
  induction s1 as [|c s1 IH]; [reflexivity |].
  change (String c ((s1 +:+ s2) +:+ s3) = String c (s1 +:+ s2 +:+ s3)).
  rewrite IH. reflexivity.
Qed.

Lemma join_cons_cons (sep x y : string) (xs : list string) :
  join sep (x :: y :: xs) = x +:+ sep +:+ join sep (y :: xs).
Proof. reflexivity. Qed.

(** Joining does not tell one argument with a space in it from two
    arguments. *)
Lemma join_space_inside (l1 l2 : list string) (a b : string) :
  join " " (l1 ++ [a +:+ " " +:+ b] ++ l2) = join " " (l1 ++ [a; b] ++ l2).
Proof.
  induction l1 as [|x l1 IH].
  - simpl app. destruct l2 as [|y l2].
    + reflexivity.
    + rewrite !join_cons_cons. rewrite !append_assoc. reflexivity.
  - destruct l1 as [|x' l1].
    + simpl app in *. rewrite !join_cons_cons. rewrite IH. reflexivity.
    + simpl app in *. rewrite (join_cons_cons _ x x'), IH. reflexivity.
Qed.

(** X14: [createTask] joins and does not quote.  For every table entry, an
    argument with a space in it gives the same command line as the two
    arguments either side of the space; and an entry without arguments gives
    the command followed by one space. *)
Theorem createTask_does_not_quote (root : string) (item : TaskConfigItem) :
  (forall (l1 l2 : list string) (a b : string),
     commandLine (execution
       (createTask root (with_args (l1 ++ [a +:+ " " +:+ b] ++ l2) item)))
     = commandLine (execution
         (createTask root (with_args (l1 ++ [a; b] ++ l2) item))))
  ∧ commandLine (execution (createTask root (with_args [] item)))
    = command (item_definition item) +:+ " ".
Proof.
  split.
  - intros l1 l2 a b.
    destruct (createTask_execution root
                (with_args (l1 ++ [a +:+ " " +:+ b] ++ l2) item)) as [-> _].
    destruct (createTask_execution root
                (with_args (l1 ++ [a; b] ++ l2) item)) as [-> _].
    unfold with_args. cbn [item_definition args command].
    rewrite join_space_inside. reflexivity.
  - destruct (createTask_execution root (with_args [] item)) as [-> _].
    reflexivity.
Qed.

Lemma createTask_relocate (r1 r2 : string) (item : TaskConfigItem) :
  createTask r1 item = relocate r1 (createTask r2 item).
Proof.
  unfold createTask, relocate.
  destruct (item_group item), (item_presentationOptions item); reflexivity.
Qed.

(** X15: the project root goes into the working directory and nowhere else.
    The tasks [provideTasks] answers with for one root are those it answers
    with for any other root, with the working directory replaced; what the
    console holds makes no difference. *)
Theorem root_only_sets_cwd (r1 r2 : string) (c1 c2 : list ConsoleEntry) :
  fst (provideTasks provider {| rootPath := Some r1; console := c1 |})
  = map (relocate r1)
      (fst (provideTasks provider {| rootPath := Some r2; console := c2 |})).
Proof.
  simpl provideTasks. unfold getCargoTasks. cbn [rootPath fst].
  rewrite map_map.
  apply map_ext. intros item. apply createTask_relocate.
Qed.

Lemma with_ambient_same (w : World) : with_ambient (ambient w) w = w.
Proof. destruct w; reflexivity. Qed.

(** X16: asking for tasks costs nothing when there is a root and one console
    line when there is none.  With a root, any number of [provideTasks]
    calls leaves the world exactly as it was; without one, each call adds one
    error line to the console and changes nothing else. *)
Theorem provideTasks_repeated (n : nat) (w : World) :
  (forall root, rootPath (ambient w) = Some root ->
     calls (repeat QueryTasks n) w = w)
  ∧ (rootPath (ambient w) = None ->
     calls (repeat QueryTasks n) w
     = with_ambient
         {| rootPath := None;
            console := console (ambient w)
                       ++ repeat (console_error "`workspace.rootPath` is `undefined`") n |}
         w).
Proof.
  split.
  - intros root Hroot. induction n as [|n IH]; [reflexivity |].
    simpl repeat. rewrite calls_cons, after_call.
    rewrite (getCargoTasks_with_root _ root Hroot). cbn [snd].
    rewrite with_ambient_same. exact IH.
  - revert w. induction n as [|n IH]; intros w Hnone.
    + simpl repeat. rewrite calls_nil, app_nil_r.
      rewrite <- Hnone. destruct w as [[? ?] ? ? ? ? ? ?]; reflexivity.
    + simpl repeat. rewrite calls_cons, after_call.
      rewrite (getCargoTasks_without_root _ Hnone). cbn [snd].
      rewrite IH by exact Hnone. cbn.
      rewrite <- app_assoc. reflexivity.
Qed.

Lemma provideTasks_repeated_witness :
  calls [QueryTasks; QueryTasks] (started (Some "/proj") ∅ accepting)
  = started (Some "/proj") ∅ accepting
  ∧ console (ambient (calls [QueryTasks; QueryTasks] (started None ∅ accepting)))
    = [console_error "`workspace.rootPath` is `undefined`";
       console_error "`workspace.rootPath` is `undefined`"].
Proof.
  split.
  - destruct (provideTasks_repeated 2 (started (Some "/proj") ∅ accepting))
      as [Hroot _].
    apply (Hroot "/proj"). reflexivity.
  - destruct (provideTasks_repeated 2 (started None ∅ accepting)) as [_ Hnone].
    change (calls [QueryTasks; QueryTasks] (started None ∅ accepting))
      with (calls (repeat QueryTasks 2) (started None ∅ accepting)).
    rewrite Hnone by reflexivity. reflexivity.
Defined.
